(** * pyrho: initialisation of the package module

  A shallow embedding of [src/pyrho/__init__.py] and the properties of
  its import-time behaviour.

  The module body is straight-line Python: a docstring, two constant
  assignments, one [from ... import ...] and one [try]/[except] around
  the call [version(__name__)].  It is embedded as a computation in a
  small state-and-exception monad over the module's global namespace.
  The function [importlib.metadata.version] belongs to the Python
  standard library, not to this package: it is a field of the
  [environment] the module is imported in. *)

From stdpp Require Import gmap strings list.

Local Open Scope string_scope.

(** ** The fragment of Python the module uses *)

Module Py.

(** The callables the module can get hold of. *)
Inductive callable :=
| importlib_metadata_version.

(** Python objects that can end up in the module namespace. *)
Inductive value :=
| VStr (s : string)
| VNone
| VFunction (f : callable)
| VClass (qualname : string)
| VBuiltins.

#[global] Instance callable_eq_dec : EqDecision callable.
Proof. solve_decision. Defined.

#[global] Instance value_eq_dec : EqDecision value.
Proof. solve_decision. Defined.

Definition is_str (v : value) : bool :=
  match v with
  | VStr _ => true
  | _ => false
  end.

(** An exception instance: the method resolution order of its class
    (the class itself first) and its message. *)
Record exn := Exn { exn_mro : list string; exn_msg : string }.

#[global] Instance exn_eq_dec : EqDecision exn.
Proof. solve_decision. Defined.

(** [isinstance(e, cls)], which is what an [except cls:] clause tests. *)
Definition isinstance (e : exn) (cls : string) : bool :=
  bool_decide (cls ∈ exn_mro e).

Definition PackageNotFoundError (msg : string) : exn :=
  Exn ["PackageNotFoundError"; "ModuleNotFoundError"; "ImportError";
       "Exception"; "BaseException"; "object"] msg.
Definition ModuleNotFoundError (msg : string) : exn :=
  Exn ["ModuleNotFoundError"; "ImportError";
       "Exception"; "BaseException"; "object"] msg.
Definition ImportError (msg : string) : exn :=
  Exn ["ImportError"; "Exception"; "BaseException"; "object"] msg.
Definition NameError (msg : string) : exn :=
  Exn ["NameError"; "Exception"; "BaseException"; "object"] msg.
Definition TypeError (msg : string) : exn :=
  Exn ["TypeError"; "Exception"; "BaseException"; "object"] msg.
Definition KeyError (msg : string) : exn :=
  Exn ["KeyError"; "LookupError"; "Exception"; "BaseException"; "object"] msg.

(** The world outside the module: the name the import system gives the
    module ([__name__]) and the behaviour of the installed-package
    metadata lookup [importlib.metadata.version], which returns an
    object or raises.  The object is the version string of the
    distribution; for metadata without a [Version] field the lookup of
    some Python versions returns [None] and that of others raises
    [KeyError]. *)
Record environment := Environment {
  module_name : string;
  metadata_version : value → exn + value
}.

(** Interpreter state: the module's globals, and the log of the
    arguments the metadata lookup has been called with. *)
Record state := State {
  globals : gmap string value;
  queries : list value
}.

Inductive result (A : Type) :=
| Normal (a : A)
| Raised (e : exn).
Arguments Normal {A} a.
Arguments Raised {A} e.

(** Statements and expressions: state passing, with the state kept when
    an exception is raised (assignments made before it stay). *)
Definition M (A : Type) : Type := state → result A * state.

#[global] Instance M_ret : MRet M := λ A a σ, (Normal a, σ).

#[global] Instance M_bind : MBind M := λ A B k m σ,
  match m σ with
  | (Normal a, σ') => k a σ'
  | (Raised e, σ') => (Raised e, σ')
  end.

Definition raise {A} (e : exn) : M A := λ σ, (Raised e, σ).

(** [x = v] at module level. *)
Definition store_name (x : string) (v : value) : M unit := λ σ,
  (Normal (), State (<[x := v]> (globals σ)) (queries σ)).

(** Reading the name [x] at module level.  The fall-back to the
    builtins namespace is left out: the theorems below show that every
    name the module reads is bound in its globals by then. *)
Definition load_name (x : string) : M value := λ σ,
  match globals σ !! x with
  | Some v => (Normal v, σ)
  | None => (Raised (NameError x), σ)
  end.

(** The attributes of the standard-library module [importlib.metadata]
    that the package imports. *)
Definition importlib_metadata : gmap string value :=
  <["PackageNotFoundError" := VClass "PackageNotFoundError"]>
    (<["version" := VFunction importlib_metadata_version]> ∅).

Definition find_module (name : string) : option (gmap string value) :=
  if decide (name = "importlib.metadata") then Some importlib_metadata
  else None.

Fixpoint import_names (attrs : gmap string value) (names : list string)
  : M unit :=
  match names with
  | [] => mret ()
  | x :: rest =>
      match attrs !! x with
      | Some v => store_name x v ;; import_names attrs rest
      | None => raise (ImportError x)
      end
  end.

(** [from modname import n1, n2, ...]. *)
Definition import_from (modname : string) (names : list string) : M unit :=
  match find_module modname with
  | Some attrs => import_names attrs names
  | None => raise (ModuleNotFoundError modname)
  end.

(** [f(arg)].  The only function around is the metadata lookup, whose
    behaviour is the environment's; each call is logged.  Calling
    anything else is not something the module does. *)
Definition call (env : environment) (f arg : value) : M value :=
  match f with
  | VFunction importlib_metadata_version => λ σ,
      (match metadata_version env arg with
       | inr v => Normal v
       | inl e => Raised e
       end,
       State (globals σ) (queries σ ++ [arg]))
  | _ => raise (TypeError "object is not callable")
  end.

(** What [exec] does to the namespace it is to run code in: one that
    has no [__builtins__] gets a reference to the builtins; one that has
    keeps its own. *)
Definition exec_globals (g : gmap string value) : gmap string value :=
  match g !! "__builtins__" with
  | Some _ => g
  | None => <["__builtins__" := VBuiltins]> g
  end.

(** [try: body except cls: handler].  The name [cls] is looked up only
    once [body] has raised; the handler runs when the exception is an
    instance of that class, otherwise the exception goes on. *)
Definition try_except {A} (body : M A) (cls : string) (handler : M A)
  : M A := λ σ,
  match body σ with
  | (Normal a, σ') => (Normal a, σ')
  | (Raised e, σ') =>
      match load_name cls σ' with
      | (Normal (VClass c), σ'') =>
          if isinstance e c then handler σ'' else (Raised e, σ'')
      | (Normal _, σ'') =>
          (Raised (TypeError "catching classes that do not inherit from BaseException is not allowed"), σ'')
      | (Raised e', σ'') => (Raised e', σ'')
      end
  end.

End Py.

(** ** The package module *)

Module Pyrho.
Import Py.

(** Lines 1-4: the docstring and the two metadata constants. *)
Definition metadata_block : M unit :=
  store_name "__doc__" (VStr "mp-pyrho package.") ;;
  store_name "__author__" (VStr "Jimmy Shen") ;;
  store_name "__email__" (VStr "jmmshn@gmail.com").

(** Line 6. *)
Definition imports : M unit :=
  import_from "importlib.metadata" ["version"; "PackageNotFoundError"].

(** Lines 8-11. *)
Definition resolve_version (env : environment) : M unit :=
  try_except
    (f ← load_name "version";
     a ← load_name "__name__";
     v ← call env f a;
     store_name "__version__" v)
    "PackageNotFoundError"
    (store_name "__version__" (VStr "unknown")).

Definition module_body (env : environment) : M unit :=
  metadata_block ;; imports ;; resolve_version env.

(** The state the body starts in.  The import system gives the module's
    namespace [pre] (whatever it already holds: the loader's attributes,
    or the previous contents on a reload) its [__name__], and [exec]
    adds [__builtins__] where it is missing. *)
Definition init_module_attrs (env : environment)
  (pre : gmap string value) : state :=
  State (exec_globals (<["__name__" := VStr (module_name env)]> pre)) [].

Definition exec_module (env : environment) (pre : gmap string value)
  : result unit * state :=
  module_body env (init_module_attrs env pre).

(** What the registry lookup answers for the module's own name. *)
Definition recorded_version (env : environment) : exn + value :=
  metadata_version env (VStr (module_name env)).

Definition version_attr (r : result unit * state) : option value :=
  globals r.2 !! "__version__".

(** The namespace once lines 1-6 have run. *)
Definition bound_before_resolution (env : environment)
  (pre : gmap string value) : gmap string value :=
  <["PackageNotFoundError" := VClass "PackageNotFoundError"]>
    (<["version" := VFunction importlib_metadata_version]>
      (<["__email__" := VStr "jmmshn@gmail.com"]>
        (<["__author__" := VStr "Jimmy Shen"]>
          (<["__doc__" := VStr "mp-pyrho package."]>
            (globals (init_module_attrs env pre)))))).

(** The names the module body can bind. *)
Definition written_names : list string :=
  ["__doc__"; "__author__"; "__email__"; "version"; "PackageNotFoundError";
   "__version__"].

(** *** Sample environments *)

(** The package is registered under its import name. *)
Definition installed_env : environment :=
  Environment "pyrho"
    (λ key, if decide (key = VStr "pyrho") then inr (VStr "0.4.6")
            else inl (PackageNotFoundError "No package metadata was found")).

(** Nothing is registered. *)
Definition bare_env : environment :=
  Environment "pyrho"
    (λ key, inl (PackageNotFoundError "No package metadata was found for pyrho")).

(** The package's metadata is there but has no [Version] field, and the
    lookup fails with a [KeyError]. *)
Definition damaged_env : environment :=
  Environment "pyrho" (λ key, inl (KeyError "Version")).

(** The same metadata, with a lookup that returns [None] for the missing
    field. *)
Definition versionless_env : environment :=
  Environment "pyrho" (λ key, inr VNone).

(** *** The claims as the specification words them, where they differ
    from what the module does *)

(** Import raises nothing and leaves a string in [__version__]. *)
Definition import_is_safe (env : environment) (pre : gmap string value)
  : Prop :=
  (exec_module env pre).1 = Normal () ∧
  ∃ s, version_attr (exec_module env pre) = Some (VStr s).

(** Whatever error the lookup ends in, it is turned into the default. *)
Definition every_lookup_error_recovered (env : environment)
  (pre : gmap string value) : Prop :=
  ∀ e, recorded_version env = inl e →
       (exec_module env pre).1 = Normal () ∧
       version_attr (exec_module env pre) = Some (VStr "unknown").

(** The lookup for the module's own name ends in one of the two ways the
    module provides for: a version string, or a package-not-found
    error. *)
Definition lookup_anticipated (env : environment) : bool :=
  match recorded_version env with
  | inr v => is_str v
  | inl e => isinstance e "PackageNotFoundError"
  end.

(** [__version__] holds the version string the registry records, or
    "unknown". *)
Definition version_is_one_of_two (env : environment)
  (pre : gmap string value) : Prop :=
  (∃ s, recorded_version env = inr (VStr s) ∧
        version_attr (exec_module env pre) = Some (VStr s)) ∨
  version_attr (exec_module env pre) = Some (VStr "unknown").

(** No global other than [__version__] is touched. *)
Definition only_version_written (env : environment)
  (pre : gmap string value) : Prop :=
  ∀ x, x ≠ "__version__" →
       globals (exec_module env pre).2 !! x
       = globals (init_module_attrs env pre) !! x.

(** ** Properties *)

(** *** Helper lemmas *)

Lemma lookup_exec_globals_builtins (g : gmap string value) :
  exec_globals g !! "__builtins__"
  = Some (default VBuiltins (g !! "__builtins__")).
Proof.
  unfold exec_globals.
  destruct (g !! "__builtins__") as [v|] eqn:Hg; [done|].
  by rewrite lookup_insert_eq.
Qed.

Lemma lookup_exec_globals_ne (g : gmap string value) x :
  x ≠ "__builtins__" → exec_globals g !! x = g !! x.
Proof.
  intros Hx. unfold exec_globals.
  destruct (g !! "__builtins__"); [done|]. by rewrite lookup_insert_ne.
Qed.

Lemma dom_exec_globals (g : gmap string value) :
  dom (exec_globals g) = {["__builtins__"]} ∪ dom g.
Proof.
  unfold exec_globals.
  destruct (g !! "__builtins__") as [v|] eqn:Hg.
  - apply elem_of_dom_2 in Hg. apply set_eq; intros x; set_unfold.
    split; [tauto|]. by intros [->|?].
  - by rewrite dom_insert_L.
Qed.

(** Looking a name up through the bindings that are stacked on a
    namespace. *)
Ltac binding :=
  unfold bound_before_resolution, init_module_attrs; cbn [globals snd];
  repeat first
    [ rewrite lookup_insert_eq
    | rewrite lookup_insert_ne by done
    | rewrite lookup_exec_globals_builtins
    | rewrite lookup_exec_globals_ne by done ];
  try done.

(** Two stacks of bindings over the same names agree at [x]: by cases on
    which of the names [x] is, if any. *)
Ltac case_name x k :=
  destruct (decide (x = k)) as [->|?]; [by binding|].

Ltac same_binding x :=
  case_name x "__version__"; case_name x "PackageNotFoundError";
  case_name x "version"; case_name x "__email__"; case_name x "__author__";
  case_name x "__doc__"; case_name x "__name__"; case_name x "__builtins__";
  by binding.

(** Lines 1-6 always run to completion, whatever the environment, and
    do not touch the registry. *)
Lemma prelude_runs env pre :
  (metadata_block ;; imports) (init_module_attrs env pre)
  = (Normal (), State (bound_before_resolution env pre) []).
Proof. reflexivity. Qed.

Lemma bound_before_resolution_name env pre :
  bound_before_resolution env pre !! "__name__"
  = Some (VStr (module_name env)).
Proof. by binding. Qed.

Lemma bound_before_resolution_version env pre :
  bound_before_resolution env pre !! "version"
  = Some (VFunction importlib_metadata_version).
Proof. unfold bound_before_resolution. by simplify_map_eq. Qed.

Lemma bound_before_resolution_class env pre :
  bound_before_resolution env pre !! "PackageNotFoundError"
  = Some (VClass "PackageNotFoundError").
Proof. unfold bound_before_resolution. by simplify_map_eq. Qed.

Lemma isinstance_PackageNotFoundError msg :
  isinstance (PackageNotFoundError msg) "PackageNotFoundError" = true.
Proof. reflexivity. Qed.

(** Importing amounts to running lines 8-11 in that namespace. *)
Lemma exec_module_resolve env pre :
  exec_module env pre
  = resolve_version env (State (bound_before_resolution env pre) []).
Proof. reflexivity. Qed.

(** The whole import, by cases on what the lookup does for the module's
    own name. *)
Lemma exec_module_cases env pre :
  exec_module env pre =
  match recorded_version env with
  | inr v =>
      (Normal (),
       State (<["__version__" := v]> (bound_before_resolution env pre))
             [VStr (module_name env)])
  | inl e =>
      if isinstance e "PackageNotFoundError"
      then (Normal (),
            State (<["__version__" := VStr "unknown"]>
                     (bound_before_resolution env pre))
                  [VStr (module_name env)])
      else (Raised e,
            State (bound_before_resolution env pre) [VStr (module_name env)])
  end.
Proof.
  rewrite exec_module_resolve.
  unfold resolve_version, try_except, mbind, M_bind, load_name.
  cbn [globals].
  rewrite bound_before_resolution_version.
  cbn [globals].
  rewrite bound_before_resolution_name.
  unfold call, store_name; cbn [globals queries app].
  fold (recorded_version env).
  destruct (recorded_version env) as [e|v]; [|reflexivity].
  cbn [globals].
  rewrite bound_before_resolution_class.
  by destruct (isinstance e "PackageNotFoundError").
Qed.

(** *** The sample imports, run *)

Example import_installed :
  exec_module installed_env ∅ =
  (Normal (),
   State (<["__version__" := VStr "0.4.6"]>
            (bound_before_resolution installed_env ∅))
         [VStr "pyrho"]).
Proof. by rewrite exec_module_cases. Qed.

Example import_bare :
  (exec_module bare_env ∅).1 = Normal () ∧
  version_attr (exec_module bare_env ∅) = Some (VStr "unknown").
Proof. by vm_compute. Qed.

Example import_damaged :
  (exec_module damaged_env ∅).1 = Raised (KeyError "Version") ∧
  version_attr (exec_module damaged_env ∅) = None ∧
  globals (exec_module damaged_env ∅).2 !! "__email__"
    = Some (VStr "jmmshn@gmail.com").
Proof. by vm_compute. Qed.

Example import_versionless :
  (exec_module versionless_env ∅).1 = Normal () ∧
  version_attr (exec_module versionless_env ∅) = Some VNone.
Proof. by vm_compute. Qed.

(** On a first import [exec] supplies [__builtins__]; a namespace that
    has its own keeps it. *)
Example import_builtins :
  globals (exec_module installed_env ∅).2 !! "__builtins__"
    = Some VBuiltins ∧
  globals (exec_module installed_env {["__builtins__" := VNone]}).2
    !! "__builtins__" = Some VNone.
Proof. by vm_compute. Qed.

(** A parent class of [PackageNotFoundError] is not caught by the
    [except] clause. *)
Example parent_class_not_caught :
  (exec_module
     (Environment "pyrho" (λ _, inl (ModuleNotFoundError "importlib")))
     ∅).1
  = Raised (ModuleNotFoundError "importlib").
Proof. by vm_compute. Qed.

(** *** Version resolution *)

(** C1: in every environment where the registry records a version for the
    module's name, import completes and [__version__] is exactly that
    recorded version string. *)
Theorem version_when_registered env pre v :
  recorded_version env = inr (VStr v) →
  (exec_module env pre).1 = Normal () ∧
  version_attr (exec_module env pre) = Some (VStr v).
Proof.
  intros Hv. rewrite exec_module_cases, Hv. split; [done|].
  unfold version_attr; cbn. by simplify_map_eq.
Qed.

Lemma version_when_registered_witness :
  recorded_version installed_env = inr (VStr "0.4.6") ∧
  (exec_module installed_env ∅).1 = Normal () ∧
  version_attr (exec_module installed_env ∅) = Some (VStr "0.4.6").
Proof.
  split; [reflexivity|].
  apply (version_when_registered installed_env ∅ "0.4.6"). reflexivity.
Defined.

(** C2: in every environment where the lookup for the module's name fails
    with package-not-found, import completes and [__version__] is exactly
    the literal "unknown". *)
Theorem version_when_absent env pre e :
  recorded_version env = inl e →
  isinstance e "PackageNotFoundError" = true →
  (exec_module env pre).1 = Normal () ∧
  version_attr (exec_module env pre) = Some (VStr "unknown").
Proof.
  intros He Hinst. rewrite exec_module_cases, He, Hinst. split; [done|].
  unfold version_attr; cbn. by simplify_map_eq.
Qed.

Lemma version_when_absent_witness :
  recorded_version bare_env
    = inl (PackageNotFoundError "No package metadata was found for pyrho") ∧
  isinstance (PackageNotFoundError "No package metadata was found for pyrho")
    "PackageNotFoundError" = true ∧
  (exec_module bare_env ∅).1 = Normal () ∧
  version_attr (exec_module bare_env ∅) = Some (VStr "unknown").
Proof.
  split; [reflexivity|]. split; [reflexivity|].
  apply (version_when_absent bare_env ∅
           (PackageNotFoundError "No package metadata was found for pyrho"));
    reflexivity.
Defined.

(** C3, as the specification words it, fails: with a lookup that raises
    [KeyError] the import raises. *)
Lemma import_is_safe_fails : ¬ import_is_safe damaged_env ∅.
Proof.
  intros [Hres _]. rewrite exec_module_cases in Hres. discriminate Hres.
Qed.

(** C3, amended: in every environment where the lookup for the module's
    name returns a version string or fails with package-not-found,
    import raises nothing and [__version__] is a string afterwards. *)
Theorem import_is_safe_when_anticipated env pre :
  lookup_anticipated env = true → import_is_safe env pre.
Proof.
  unfold lookup_anticipated, import_is_safe. intros Hant.
  rewrite exec_module_cases.
  destruct (recorded_version env) as [e|[s| | | |]];
    try discriminate Hant; [rewrite Hant|];
    (split; [done|]); unfold version_attr; cbn;
    eexists; by simplify_map_eq.
Qed.

Lemma import_is_safe_when_anticipated_witness :
  lookup_anticipated bare_env = true ∧ import_is_safe bare_env ∅.
Proof.
  split; [reflexivity|].
  apply (import_is_safe_when_anticipated bare_env ∅). reflexivity.
Defined.

(** C4, as the specification words it, fails: the [KeyError] of the
    lookup is not turned into the default value. *)
Lemma lookup_error_not_recovered :
  ¬ every_lookup_error_recovered damaged_env ∅.
Proof.
  intros Hall. destruct (Hall (KeyError "Version") eq_refl) as [Hres _].
  rewrite exec_module_cases in Hres. discriminate Hres.
Qed.

(** C4, amended: package-not-found is the one lookup failure the module
    handles.  A lookup error that is an instance of
    [PackageNotFoundError] is caught and replaced by the default value,
    and nothing is raised; any other lookup error is raised, unchanged,
    to the importer. *)
Theorem lookup_error_handling env pre e :
  recorded_version env = inl e →
  if isinstance e "PackageNotFoundError"
  then (exec_module env pre).1 = Normal () ∧
       version_attr (exec_module env pre) = Some (VStr "unknown")
  else (exec_module env pre).1 = Raised e.
Proof.
  intros He. rewrite exec_module_cases, He.
  destruct (isinstance e "PackageNotFoundError"); [|done].
  split; [done|]. unfold version_attr; cbn. by simplify_map_eq.
Qed.

Lemma lookup_error_handling_witness :
  recorded_version damaged_env = inl (KeyError "Version") ∧
  (exec_module damaged_env ∅).1 = Raised (KeyError "Version").
Proof.
  split; [reflexivity|].
  apply (lookup_error_handling damaged_env ∅ (KeyError "Version")).
  reflexivity.
Defined.



(** C6, as the specification words it, fails in two ways.  With a
    lookup that raises [KeyError] the import raises and [__version__] is
    not bound at all; with a lookup that returns [None] the import
    completes and [__version__] is [None], which is neither a version
    string nor "unknown". *)
Lemma version_one_of_two_fails :
  ¬ version_is_one_of_two damaged_env ∅ ∧
  ¬ version_is_one_of_two versionless_env ∅.
Proof.
  split; intros [(s & Hrec & _)|Hunknown];
    try discriminate Hrec; vm_compute in Hunknown; discriminate Hunknown.
Qed.

(** C6, amended: once import has completed, [__version__] holds one of
    two values and no third: the object the registry lookup returned for
    the module's name, or, the lookup having failed with
    package-not-found, the literal "unknown". *)
Theorem version_one_of_two env pre :
  (exec_module env pre).1 = Normal () →
  (∃ v, recorded_version env = inr v ∧
        version_attr (exec_module env pre) = Some v) ∨
  (∃ e, recorded_version env = inl e ∧
        isinstance e "PackageNotFoundError" = true ∧
        version_attr (exec_module env pre) = Some (VStr "unknown")).
Proof.
  rewrite exec_module_cases.
  destruct (recorded_version env) as [e|v].
  - destruct (isinstance e "PackageNotFoundError") eqn:Hinst; [|discriminate].
    intros _. right. exists e. split; [done|]. split; [done|].
    unfold version_attr; cbn. by simplify_map_eq.
  - intros _. left. exists v. split; [done|].
    unfold version_attr; cbn. by simplify_map_eq.
Qed.

Lemma version_one_of_two_witness :
  (exec_module installed_env ∅).1 = Normal () ∧
  ((∃ v, recorded_version installed_env = inr v ∧
         version_attr (exec_module installed_env ∅) = Some v) ∨
   (∃ e, recorded_version installed_env = inl e ∧
         isinstance e "PackageNotFoundError" = true ∧
         version_attr (exec_module installed_env ∅) = Some (VStr "unknown"))).
Proof.
  split; [reflexivity|].
  apply (version_one_of_two installed_env ∅). reflexivity.
Defined.

(** *** Frame and metadata *)

(** C7, as the specification words it, fails: [__author__] is bound by
    the import although it is not [__version__]. *)
Lemma other_names_written : ¬ only_version_written installed_env ∅.
Proof.
  intros Hframe. specialize (Hframe "__author__").
  rewrite exec_module_cases in Hframe. vm_compute in Hframe.
  specialize (Hframe ltac:(discriminate)). discriminate Hframe.
Qed.

(** C7, amended: the module body binds no module-level name other than
    [__doc__], [__author__], [__email__], [version],
    [PackageNotFoundError] and [__version__]; every other name keeps what
    it held when the body started. *)
Theorem module_body_frame env pre x :
  x ∉ written_names →
  globals (exec_module env pre).2 !! x
  = globals (init_module_attrs env pre) !! x.
Proof.
  unfold written_names. intros Hx.
  repeat (apply not_elem_of_cons in Hx as [? Hx]).
  assert (bound_before_resolution env pre !! x
          = globals (init_module_attrs env pre) !! x) as Hbase.
  { unfold bound_before_resolution. by rewrite !lookup_insert_ne. }
  rewrite exec_module_cases.
  destruct (recorded_version env) as [e|v];
    [destruct (isinstance e "PackageNotFoundError")|]; cbn [globals snd];
    rewrite ?lookup_insert_ne by done; exact Hbase.
Qed.

Lemma module_body_frame_witness :
("__file__" ∉ written_names) ∧
  (globals (exec_module installed_env
              {["__file__" := VStr "pyrho/__init__.py"]}).2) !! "__file__"
  = (globals (init_module_attrs installed_env
                {["__file__" := VStr "pyrho/__init__.py"]})) !! "__file__".
Proof.
  assert ("__file__" ∉ written_names) as Hx by compute_done.
  split; [exact Hx|].
  exact (module_body_frame installed_env
           {["__file__" := VStr "pyrho/__init__.py"]} "__file__" Hx).
Defined.

(** C8: a lookup error that is not an instance of [PackageNotFoundError]
    is not handled: the import raises that very error, and
    [__version__] is not assigned. *)
Theorem other_errors_propagate env pre e :
  recorded_version env = inl e →
  isinstance e "PackageNotFoundError" = false →
  (exec_module env pre).1 = Raised e ∧
  version_attr (exec_module env pre) = pre !! "__version__".
Proof.
  intros He Hinst. rewrite exec_module_cases, He, Hinst. split; [done|].
  unfold version_attr. by binding.
Qed.

Lemma other_errors_propagate_witness :
  recorded_version damaged_env = inl (KeyError "Version") ∧
  isinstance (KeyError "Version") "PackageNotFoundError" = false ∧
  (exec_module damaged_env ∅).1 = Raised (KeyError "Version") ∧
  version_attr (exec_module damaged_env ∅) = None.
Proof.
  split; [reflexivity|]. split; [reflexivity|].
  pose proof (other_errors_propagate damaged_env ∅ (KeyError "Version")
                eq_refl eq_refl) as Hraised.
  rewrite lookup_empty in Hraised. exact Hraised.
Defined.

(** C9: the outcome of the import is a function of what the registry
    answers for the module's name.  Two executions against the same
    answer, whatever the namespaces they start from, end the same way,
    and when they complete they leave the same [__version__]. *)
Theorem version_deterministic env1 env2 pre1 pre2 :
  recorded_version env1 = recorded_version env2 →
  (exec_module env1 pre1).1 = (exec_module env2 pre2).1 ∧
  ((exec_module env1 pre1).1 = Normal () →
   version_attr (exec_module env1 pre1)
   = version_attr (exec_module env2 pre2)).
Proof.
  intros Hsame. rewrite !exec_module_cases, <- Hsame.
  destruct (recorded_version env1) as [e|v];
    [destruct (isinstance e "PackageNotFoundError")|];
    (split; [done|]); try discriminate;
    intros _; unfold version_attr; cbn; by simplify_map_eq.
Qed.

Lemma version_deterministic_witness :
  recorded_version installed_env = recorded_version installed_env ∧
  (exec_module installed_env ∅).1
  = (exec_module installed_env {["__version__" := VStr "0.4.5"]}).1 ∧
  ((exec_module installed_env ∅).1 = Normal () →
   version_attr (exec_module installed_env ∅)
   = version_attr (exec_module installed_env {["__version__" := VStr "0.4.5"]})).
Proof.
  split; [reflexivity|].
  apply (version_deterministic installed_env installed_env
           ∅ {["__version__" := VStr "0.4.5"]}).
  reflexivity.
Defined.

(** C10: in every environment, lines 1-4 complete and bind [__author__]
    to "Jimmy Shen" and [__email__] to "jmmshn@gmail.com" before the
    registry is queried; the rest of the body runs from that state, and
    both bindings are still there when it ends, whether or not it
    raises. *)
Theorem author_and_email_set env pre :
  (metadata_block (init_module_attrs env pre)).1 = Normal () ∧
  globals (metadata_block (init_module_attrs env pre)).2 !! "__author__"
    = Some (VStr "Jimmy Shen") ∧
  globals (metadata_block (init_module_attrs env pre)).2 !! "__email__"
    = Some (VStr "jmmshn@gmail.com") ∧
  queries (metadata_block (init_module_attrs env pre)).2 = [] ∧
  exec_module env pre
    = (imports ;; resolve_version env)
        (metadata_block (init_module_attrs env pre)).2 ∧
  globals (exec_module env pre).2 !! "__author__"
    = Some (VStr "Jimmy Shen") ∧
  globals (exec_module env pre).2 !! "__email__"
    = Some (VStr "jmmshn@gmail.com").
Proof.
  split; [reflexivity|].
  split; [cbn; by simplify_map_eq|].
  split; [cbn; by simplify_map_eq|].
  split; [reflexivity|].
  split; [reflexivity|].
  rewrite exec_module_cases.
  destruct (recorded_version env) as [e|v];
    [destruct (isinstance e "PackageNotFoundError")|];
    unfold bound_before_resolution; cbn; by simplify_map_eq.
Qed.

(** *** Further properties of the import *)

(** X1: the only exceptions an import can end in are those of the
    registry lookup.  The import raises [e] exactly when the lookup for
    the module's name raised [e] and [e] is not an instance of
    [PackageNotFoundError]; the statements of the module never fail on
    their own (no [NameError], [ImportError] or [TypeError]), whatever
    the namespace held before. *)
Theorem import_raises_iff env pre e :
  (exec_module env pre).1 = Raised e ↔
  recorded_version env = inl e ∧ isinstance e "PackageNotFoundError" = false.
Proof.
  rewrite exec_module_cases.
  destruct (recorded_version env) as [e'|v]; cbn.
  - destruct (isinstance e' "PackageNotFoundError") eqn:Hinst; cbn.
    + split; [discriminate|]. intros [[= ->] Hno]. congruence.
    + split; [by intros [= ->]|]. by intros [[= ->] _].
  - split; [discriminate|]. by intros [? _].
Qed.

Lemma import_raises_iff_witness :
  (exec_module damaged_env ∅).1 = Raised (KeyError "Version") ∧
  recorded_version damaged_env = inl (KeyError "Version") ∧
  isinstance (KeyError "Version") "PackageNotFoundError" = false.
Proof.
  split; [reflexivity|].
  apply (import_raises_iff damaged_env ∅ (KeyError "Version")).
  reflexivity.
Defined.

(** X2: reading [__version__] back.  When the import has completed and
    [__version__] holds a string other than "unknown", the registry
    records exactly that string for the module's name. *)
Theorem version_read_back env pre s :
  (exec_module env pre).1 = Normal () →
  version_attr (exec_module env pre) = Some (VStr s) →
  s ≠ "unknown" →
  recorded_version env = inr (VStr s).
Proof.
  rewrite exec_module_cases.
  destruct (recorded_version env) as [e|v].
  - destruct (isinstance e "PackageNotFoundError"); [|discriminate].
    intros _. unfold version_attr; cbn. rewrite lookup_insert_eq.
    intros [= <-] Hs. by destruct Hs.
  - intros _. unfold version_attr; cbn. rewrite lookup_insert_eq.
    by intros [= ->].
Qed.

Lemma version_read_back_witness :
  (exec_module installed_env ∅).1 = Normal () ∧
  version_attr (exec_module installed_env ∅) = Some (VStr "0.4.6") ∧
  "0.4.6" ≠ "unknown" ∧
  recorded_version installed_env = inr (VStr "0.4.6").
Proof.
  assert ("0.4.6" ≠ "unknown") as Hs by discriminate.
  assert (version_attr (exec_module installed_env ∅) = Some (VStr "0.4.6"))
    as Hv by (by vm_compute).
  split; [reflexivity|]. split; [exact Hv|]. split; [exact Hs|].
  exact (version_read_back installed_env ∅ "0.4.6" eq_refl Hv Hs).
Defined.

(** X3: the names of line 6 stay in the module namespace.  After the
    import, raising or not, the module attribute [version] is the
    registry's lookup function (not the version string),
    [PackageNotFoundError] is the exception class, and [__doc__] is the
    docstring of line 1; whatever the namespace held under these names
    before is overwritten. *)
Theorem imported_names_bound env pre :
  globals (exec_module env pre).2 !! "version"
    = Some (VFunction importlib_metadata_version) ∧
  globals (exec_module env pre).2 !! "PackageNotFoundError"
    = Some (VClass "PackageNotFoundError") ∧
  globals (exec_module env pre).2 !! "__doc__"
    = Some (VStr "mp-pyrho package.").
Proof.
  rewrite exec_module_cases.
  destruct (recorded_version env) as [e|v];
    [destruct (isinstance e "PackageNotFoundError")|];
    unfold bound_before_resolution; cbn; by simplify_map_eq.
Qed.

(** X4: the names bound once the body has run.  After a completed import
    they are the names in the module's namespace before the import plus
    [__name__] and [__builtins__], which the import system and [exec]
    supply, and [__doc__], [__author__], [__email__], [version],
    [PackageNotFoundError] and [__version__], which the body binds;
    after an import that raised, the same without [__version__]. *)
Theorem names_after_import env pre :
  dom (globals (exec_module env pre).2) =
  match (exec_module env pre).1 with
  | Normal _ =>
      {[ "__name__"; "__builtins__"; "__doc__"; "__author__"; "__email__";
         "version"; "PackageNotFoundError"; "__version__" ]} ∪ dom pre
  | Raised _ =>
      {[ "__name__"; "__builtins__"; "__doc__"; "__author__"; "__email__";
         "version"; "PackageNotFoundError" ]} ∪ dom pre
  end.
Proof.
  rewrite exec_module_cases.
  destruct (recorded_version env) as [e|v];
    [destruct (isinstance e "PackageNotFoundError")|];
    unfold bound_before_resolution, init_module_attrs; cbn [globals fst snd];
    rewrite !dom_insert_L, dom_exec_globals, dom_insert_L;
    apply set_eq; intros x; set_unfold; tauto.
Qed.

(** *** Executing the body again (reload) *)

(** X5: executing the body a second time in the same environment, in the
    namespace the first execution left, changes nothing: the outcome is
    the same and so is the whole namespace, whether the executions
    complete or raise. *)
Theorem reexecution_idempotent env pre :
  (exec_module env (globals (exec_module env pre).2)).1
    = (exec_module env pre).1 ∧
  globals (exec_module env (globals (exec_module env pre).2)).2
    = globals (exec_module env pre).2.
Proof.
  rewrite !exec_module_cases.
  destruct (recorded_version env) as [e|v];
    [destruct (isinstance e "PackageNotFoundError")|];
    (split; [done|]); unfold bound_before_resolution; cbn;
    apply map_eq; intros x; same_binding x.
Qed.

(** X6: a completed execution leaves no trace of an earlier one.  When
    the body is executed in the namespace left by an execution in some
    other environment (which may have completed or raised) and this
    second execution completes, the namespace is the one a first
    execution in the second environment would have given. *)
Theorem reexecution_overrides env1 env2 pre :
  (exec_module env2 (globals (exec_module env1 pre).2)).1 = Normal () →
  globals (exec_module env2 (globals (exec_module env1 pre).2)).2
    = globals (exec_module env2 pre).2.
Proof.
  rewrite !exec_module_cases.
  destruct (recorded_version env2) as [e2|v2];
    [destruct (isinstance e2 "PackageNotFoundError"); [|discriminate]|];
    intros _;
    (destruct (recorded_version env1) as [e1|v1];
       [destruct (isinstance e1 "PackageNotFoundError")|]);
    unfold bound_before_resolution; cbn;
    apply map_eq; intros x; same_binding x.
Qed.

Lemma reexecution_overrides_witness :
  (exec_module installed_env (globals (exec_module bare_env ∅).2)).1
    = Normal () ∧
  globals (exec_module installed_env (globals (exec_module bare_env ∅).2)).2
    = globals (exec_module installed_env ∅).2.
Proof.
  split; [reflexivity|].
  apply (reexecution_overrides bare_env installed_env ∅). reflexivity.
Defined.

(** X7: a second execution that raises leaves the version of the first.
    When an execution has completed and the body is executed again in the
    namespace it left, in an environment whose lookup raises an error
    that is not package-not-found, the second execution raises that
    error and [__version__] still holds what the first one assigned: a
    string, whenever the first lookup returned a string or failed with
    package-not-found. *)
Theorem failed_reexecution_keeps_version env1 env2 pre e :
  (exec_module env1 pre).1 = Normal () →
  recorded_version env2 = inl e →
  isinstance e "PackageNotFoundError" = false →
  (exec_module env2 (globals (exec_module env1 pre).2)).1 = Raised e ∧
  ∃ v, version_attr (exec_module env1 pre) = Some v ∧
       version_attr (exec_module env2 (globals (exec_module env1 pre).2))
       = Some v ∧
       (lookup_anticipated env1 = true → is_str v = true).
Proof.
  intros Hfirst He Hinst.
  rewrite (exec_module_cases env2), He, Hinst. split; [done|].
  revert Hfirst. unfold lookup_anticipated. rewrite exec_module_cases.
  destruct (recorded_version env1) as [e1|v1];
    [destruct (isinstance e1 "PackageNotFoundError"); [|discriminate]|];
    intros _; eexists; unfold version_attr; cbn [globals snd];
    (split; [by binding|]); (split; [by binding|]); done.
Qed.

Lemma failed_reexecution_keeps_version_witness :
  (exec_module installed_env ∅).1 = Normal () ∧
  recorded_version damaged_env = inl (KeyError "Version") ∧
  isinstance (KeyError "Version") "PackageNotFoundError" = false ∧
  (exec_module damaged_env (globals (exec_module installed_env ∅).2)).1
    = Raised (KeyError "Version") ∧
  ∃ v, version_attr (exec_module installed_env ∅) = Some v ∧
       version_attr
         (exec_module damaged_env (globals (exec_module installed_env ∅).2))
       = Some v ∧
       (lookup_anticipated installed_env = true → is_str v = true).
Proof.
  split; [reflexivity|]. split; [reflexivity|]. split; [reflexivity|].
  apply (failed_reexecution_keeps_version installed_env damaged_env ∅
           (KeyError "Version")); reflexivity.
Defined.

End Pyrho.
